(** * Power Calculator ([app.py]): a shallow embedding and its properties

    [app.py] is a Streamlit script.  Each run draws a title and an
    introduction, reads an integer [n] from a number field, computes
    [n**2], [n**3] and [n**5], and writes one line per result.

    The script is embedded as a computation in a small monad that carries
    the page being drawn together with whatever state the host keeps
    (files, environment, session storage), and that can stop early the way
    a Python expression can.  Python's [int] is unbounded, hence [Z]. *)

From Stdlib Require Import ZArith Ascii String List Lia.
From Stdlib Require Import Decimal DecimalString DecimalPos DecimalZ.
Import ListNotations.

Local Open Scope string_scope.
Local Open Scope Z_scope.

(** ** The Python fragment the script relies on *)

Module Py.

(** Exceptions that integer exponentiation can raise. *)
Inductive exn : Type :=
| ZeroDivisionError.

(** Why the evaluation of an integer expression stops without an [int]:
    an exception was raised, or the value is a [float] (which is what
    [a ** b] yields for a negative [b]); floats are not followed here. *)
Inductive stop : Type :=
| Raised (e : exn)
| FloatValue (base exponent : Z).

Inductive outcome (A : Type) : Type :=
| Done (a : A)
| Stop (s : stop).

Arguments Done {A} a.
Arguments Stop {A} s.

(** [a ** b] on two [int] operands. *)
Definition int_pow (a b : Z) : outcome Z :=
  if 0 <=? b then Done (a ^ b)
  else if a =? 0 then Stop (Raised ZeroDivisionError)
  else Stop (FloatValue a b).

(** [str(z)], which is also what [{z}] expands to inside an f-string:
    decimal digits, most significant first, a leading [-] when negative. *)
Definition str (z : Z) : string :=
  NilZero.string_of_int (Z.to_int z).

(** Reading a decimal numeral back, the inverse of [str]. *)
Definition int_of_str (s : string) : option Z :=
  option_map Z.of_int (NilZero.int_of_string s).

End Py.

Import Py.

(** ** The Streamlit page and the script monad *)

(** What a script run has put on the page, in drawing order. *)
Inductive element : Type :=
| Title (body : string)
| Written (body : string)
| NumberInput (label : string) (value step : Z).

(** The world a run acts on: [host] stands for everything kept outside the
    page (files, environment variables, session storage); its type is left
    open, so nothing below can depend on how it is represented. *)
Record world (Host : Type) : Type := World {
  host : Host;
  page : list element
}.

Arguments World {Host} host page.
Arguments host {Host} w.
Arguments page {Host} w.

(** A script fragment: it may stop, and it hands the world on either way
    (what was drawn before an exception stays drawn). *)
Definition script (Host A : Type) : Type :=
  world Host -> outcome A * world Host.

Definition ret {Host A} (a : A) : script Host A :=
  fun w => (Done a, w).

Definition bind {Host A B} (c : script Host A) (k : A -> script Host B)
  : script Host B :=
  fun w =>
    match c w with
    | (Done a, w') => k a w'
    | (Stop s, w') => (Stop s, w')
    end.

(** Lifting the result of a pure Python expression. *)
Definition eval {Host A} (o : outcome A) : script Host A :=
  fun w => (o, w).

Declare Scope script_scope.
Delimit Scope script_scope with script.

Notation "x <- c ;; k" := (bind c (fun x => k))
  (at level 61, c at next level, right associativity) : script_scope.
Notation "c ;; k" := (bind c (fun _ => k))
  (at level 61, right associativity) : script_scope.

Local Open Scope script_scope.

(** Drawing appends to the page and touches nothing else. *)
Definition draw {Host} (e : element) : script Host unit :=
  fun w => (Done tt, World (host w) (page w ++ [e])).

Definition st_title {Host} (body : string) : script Host unit :=
  draw (Title body).

Definition st_write {Host} (body : string) : script Host unit :=
  draw (Written body).

(** [st.number_input(label, value=..., step=...)] with integer [value] and
    [step]: draws the field and returns what the user entered, or [value]
    when the user has not touched the field. *)
Definition st_number_input {Host} (label : string) (value step : Z)
    (entered : option Z) : script Host Z :=
  draw (NumberInput label value step) ;;
  ret (match entered with Some v => v | None => value end).

(** ** The script *)

(** Lines 11-13: the three powers. *)
Definition Calculator {Host} (n : Z) : script Host (Z * Z * Z) :=
  square <- eval (int_pow n 2) ;;
  cube <- eval (int_pow n 3) ;;
  fifth_power <- eval (int_pow n 5) ;;
  ret (square, cube, fifth_power).

(** Lines 16-18: one written line per result.  The first literal is
    spelled [sqaure] in the script. *)
Definition display_results {Host} (n square cube fifth_power : Z)
  : script Host unit :=
  st_write ("The sqaure of " ++ str n ++ " is: " ++ str square) ;;
  st_write ("The cube of " ++ str n ++ " is: " ++ str cube) ;;
  st_write ("The fifth_power of " ++ str n ++ " is: " ++ str fifth_power).

(** The whole of [app.py]; [entered] is the user's entry, if any.  The run
    yields the values bound to [square], [cube] and [fifth_power] when the
    script ends. *)
Definition app {Host} (entered : option Z) : script Host (Z * Z * Z) :=
  st_title "Power Calculator" ;;
  st_write "Enter a number to calculate its square, cube and fifth power." ;;
  n <- st_number_input "Enter an integer" 1 1 entered ;;
  powers <- Calculator n ;;
  (let '(square, cube, fifth_power) := powers in
   display_results n square cube fifth_power) ;;
  ret powers.

(** One render cycle: Streamlit reruns the script on an empty page. *)
Definition render {Host} (h : Host) (entered : option Z)
  : outcome (Z * Z * Z) * world Host :=
  app entered (World h []).

(** The bodies of the written elements of a page, in order. *)
Fixpoint written (p : list element) : list string :=
  match p with
  | [] => []
  | Written body :: p' => body :: written p'
  | _ :: p' => written p'
  end.

(** The number fields of a page, as (default value, step) pairs. *)
Fixpoint number_fields (p : list element) : list (Z * Z) :=
  match p with
  | [] => []
  | NumberInput _ value step :: p' => (value, step) :: number_fields p'
  | _ :: p' => number_fields p'
  end.

(** What was drawn after the first number field of a page. *)
Fixpoint after_input (p : list element) : list element :=
  match p with
  | [] => []
  | NumberInput _ _ _ :: p' => p'
  | _ :: p' => after_input p'
  end.

(** The lines a page shows below its number field. *)
Definition result_lines (p : list element) : list string :=
  written (after_input p).

(** The three result lines as section 6 of the specification words them. *)
Definition spec_lines (n : Z) : list string :=
  [ "The square of " ++ str n ++ " is: " ++ str (n ^ 2);
    "The cube of " ++ str n ++ " is: " ++ str (n ^ 3);
    "The fifth_power of " ++ str n ++ " is: " ++ str (n ^ 5) ].

(** The elements [app.py] draws when the number field yields [n]. *)
Definition app_page (n : Z) : list element :=
  [ Title "Power Calculator";
    Written "Enter a number to calculate its square, cube and fifth power.";
    NumberInput "Enter an integer" 1 1;
    Written ("The sqaure of " ++ str n ++ " is: " ++ str (n ^ 2));
    Written ("The cube of " ++ str n ++ " is: " ++ str (n ^ 3));
    Written ("The fifth_power of " ++ str n ++ " is: " ++ str (n ^ 5)) ].

(** The value the number field hands to the script. *)
Definition field_value (entered : option Z) : Z :=
  match entered with Some v => v | None => 1 end.

(** Whether a string contains a blank; the numerals [str] prints do not,
    which is what keeps the fields of a result line apart. *)
Fixpoint has_space (s : string) : bool :=
  match s with
  | EmptyString => false
  | String c s' => Ascii.eqb c " "%char || has_space s'
  end.

(** ** Concrete runs *)

Example render_default :
  render tt None =
  (Done (1, 1, 1),
   World tt [ Title "Power Calculator";
              Written "Enter a number to calculate its square, cube and fifth power.";
              NumberInput "Enter an integer" 1 1;
              Written "The sqaure of 1 is: 1";
              Written "The cube of 1 is: 1";
              Written "The fifth_power of 1 is: 1" ]).
Proof. reflexivity. Qed.

Example render_minus_two :
  written (page (snd (render tt (Some (-2))))) =
  [ "Enter a number to calculate its square, cube and fifth power.";
    "The sqaure of -2 is: 4";
    "The cube of -2 is: -8";
    "The fifth_power of -2 is: -32" ].
Proof. reflexivity. Qed.

Example render_beyond_64_bits :
  fst (render tt (Some (2 ^ 64))) = Done (2 ^ 128, 2 ^ 192, 2 ^ 320).
Proof. reflexivity. Qed.

Example int_pow_negative_exponent :
  int_pow 0 (-1) = Stop (Raised ZeroDivisionError) /\
  int_pow 2 (-1) = Stop (FloatValue 2 (-1)).
Proof. split; reflexivity. Qed.

(** ** Python's operations *)

Lemma int_pow_nonneg (a b : Z) : 0 <= b -> int_pow a b = Done (a ^ b).
Proof.
  intros Hb. unfold int_pow.
  destruct (Z.leb_spec 0 b) as [_ | Hlt]; [reflexivity | lia].
Qed.

Lemma int_pow_stops_iff (a b : Z) :
  (exists s, int_pow a b = Stop s) <-> b < 0.
Proof.
  unfold int_pow. destruct (Z.leb_spec 0 b) as [Hle | Hlt].
  - split; [intros [s Hs]; discriminate Hs | lia].
  - split; [intros _; exact Hlt | intros _].
    destruct (a =? 0); eexists; reflexivity.
Qed.

Lemma to_int_not_nil (z : Z) : Z.to_int z <> Pos Nil /\ Z.to_int z <> Neg Nil.
Proof.
  destruct z as [| p | p]; simpl; split; try discriminate;
    intros H; injection H as H; exact (DecimalPos.Unsigned.to_uint_nonnil p H).
Qed.

(** [str] prints a numeral that reads back as the same integer. *)
Lemma int_of_str_str (z : Z) : int_of_str (str z) = Some z.
Proof.
  unfold int_of_str, str.
  destruct (to_int_not_nil z) as [Hp Hn].
  rewrite (NilZero.isi _ Hp Hn). simpl. now rewrite DecimalZ.of_to.
Qed.

Lemma str_inj (x y : Z) : str x = str y -> x = y.
Proof.
  intros H. apply (f_equal int_of_str) in H.
  rewrite !int_of_str_str in H. now injection H.
Qed.

(** ** Running the script *)

Section Runs.

Context {Host : Type}.
Implicit Types (w : world Host) (n : Z) (entered : option Z).

Lemma Calculator_run w n :
  Calculator n w = (Done (n ^ 2, n ^ 3, n ^ 5), w).
Proof. reflexivity. Qed.

Lemma display_results_run w n square cube fifth_power :
  display_results n square cube fifth_power w =
  (Done tt,
   World (host w)
     (page w ++
      [ Written ("The sqaure of " ++ str n ++ " is: " ++ str square);
        Written ("The cube of " ++ str n ++ " is: " ++ str cube);
        Written ("The fifth_power of " ++ str n ++ " is: " ++ str fifth_power) ])).
Proof.
  unfold display_results, st_write, draw, bind. cbn [host page].
  now rewrite <- !app_assoc.
Qed.

Lemma st_number_input_run w label value step entered :
  st_number_input label value step entered w =
  (Done (match entered with Some v => v | None => value end),
   World (host w) (page w ++ [NumberInput label value step])).
Proof. reflexivity. Qed.

Lemma app_run w entered :
  app entered w =
  (let n := field_value entered in
   (Done (n ^ 2, n ^ 3, n ^ 5),
    World (host w) (page w ++ app_page n))).
Proof.
  unfold app, st_title, st_write, st_number_input, bind at 1 2 3.
  unfold draw at 1 2 3. unfold bind at 1, ret at 1. cbn [host page].
  unfold bind at 1. rewrite Calculator_run.
  unfold bind at 1. rewrite display_results_run.
  unfold ret, field_value, app_page. cbn [host page].
  now rewrite <- !app_assoc.
Qed.

Lemma render_run (h : Host) entered :
  render h entered =
  (Done (field_value entered ^ 2, field_value entered ^ 3,
         field_value entered ^ 5),
   World h (app_page (field_value entered))).
Proof. unfold render. now rewrite app_run. Qed.

End Runs.

(** ** Properties of the calculator and of the page it renders *)

Section Properties.

Context {Host : Type}.
Implicit Types (w : world Host) (h : Host) (n : Z) (entered : option Z).

(** C1: for every integer [n] the computed triple is
    [(n*n, n*n*n, n*n*n*n*n)], both for the three assignments on their
    own and for a whole run of the script whose field yields [n]. *)
Theorem Calculator_powers w n :
  fst (Calculator n w) = Done (n * n, n * n * n, n * n * n * n * n) /\
  fst (app (Some n) w) = Done (n * n, n * n * n, n * n * n * n * n).
Proof.
  rewrite Calculator_run, app_run. cbn [fst field_value].
  replace (n ^ 2) with (n * n) by ring.
  replace (n ^ 3) with (n * n * n) by ring.
  replace (n ^ 5) with (n * n * n * n * n) by ring.
  split; reflexivity.
Qed.

(** C2: the lines shown below the number field.  The script writes
    exactly three, in the order square, cube, fifth power; the second and
    third are the ones the specification words, but the first reads
    [The sqaure of ...], so the three lines are never the specified
    ones.  With the field left at its default the first line shown is
    [The sqaure of 1 is: 1]. *)
Theorem result_lines_misspelt h n :
  let shown := result_lines (page (snd (render h (Some n)))) in
  result_lines (page (snd (render h None))) =
    [ "The sqaure of 1 is: 1"; "The cube of 1 is: 1";
      "The fifth_power of 1 is: 1" ] /\
  shown =
    [ "The sqaure of " ++ str n ++ " is: " ++ str (n ^ 2);
      "The cube of " ++ str n ++ " is: " ++ str (n ^ 3);
      "The fifth_power of " ++ str n ++ " is: " ++ str (n ^ 5) ] /\
  tl shown = tl (spec_lines n) /\
  hd_error shown <> hd_error (spec_lines n) /\
  shown <> spec_lines n.
Proof.
  cbv zeta. split; [reflexivity |].
  rewrite render_run. cbn [snd page field_value].
  unfold result_lines, app_page, spec_lines.
  cbn [after_input written tl hd_error].
  repeat split; try (intros H; simpl in H; discriminate H).
Qed.

(** C3: [n = -2] gives [(4, -8, -32)] and [n = 10] gives
    [(100, 1000, 100000)]; and any negative [n] gives a positive square
    with a negative cube and a negative fifth power. *)
Theorem Calculator_examples w :
  fst (Calculator (-2) w) = Done (4, -8, -32) /\
  fst (Calculator 10 w) = Done (100, 1000, 100000) /\
  (forall n, n < 0 ->
     exists square cube fifth_power,
       fst (Calculator n w) = Done (square, cube, fifth_power) /\
       0 < square /\ cube < 0 /\ fifth_power < 0).
Proof.
  split; [reflexivity | split; [reflexivity |]].
  intros n Hn. exists (n ^ 2), (n ^ 3), (n ^ 5).
  rewrite Calculator_run. split; [reflexivity |].
  replace (n ^ 2) with (n * n) by ring.
  replace (n ^ 3) with (n * (n * n)) by ring.
  replace (n ^ 5) with (n * ((n * n) * (n * n))) by ring.
  assert (0 < n * n) by nia. repeat split; nia.
Qed.

(** C4: the computation never stops short.  For every integer [n], zero
    and negatives included, each of [n**2], [n**3] and [n**5] evaluates to
    an integer, the three assignments yield a triple, and so does the
    whole script; the stopping outcomes of [**] need a negative exponent. *)
Theorem Calculator_total w n entered :
  (exists v, int_pow n 2 = Done v) /\
  (exists v, int_pow n 3 = Done v) /\
  (exists v, int_pow n 5 = Done v) /\
  (exists t, fst (Calculator n w) = Done t) /\
  (exists t, fst (app entered w) = Done t) /\
  (forall s, int_pow n 2 <> Stop s /\ int_pow n 3 <> Stop s /\
             int_pow n 5 <> Stop s /\ fst (Calculator n w) <> Stop s).
Proof.
  rewrite app_run, Calculator_run. cbn [fst].
  rewrite !int_pow_nonneg by lia.
  repeat match goal with
         | |- _ /\ _ => split
         | |- exists _, _ => eexists; reflexivity
         end.
  intros s. repeat split; discriminate.
Qed.

(** C6: the three assignments hand the world back exactly as they found
    it (host state and page alike) and their result does not depend on
    it; a whole run only appends to the page and leaves the host state
    alone; and a render cycle starts from nothing the previous cycle
    left, whatever was entered then. *)
Theorem Calculator_frame w n :
  snd (Calculator n w) = w /\
  (forall w', fst (Calculator n w') = fst (Calculator n w)) /\
  (forall entered,
     host (snd (app entered w)) = host w /\
     exists drawn, page (snd (app entered w)) = (page w ++ drawn)%list) /\
  (forall h before entered,
     render (host (snd (render h before))) entered = render h entered).
Proof.
  split; [reflexivity | split; [reflexivity | split]].
  - intros entered. rewrite app_run. cbn [snd host page].
    split; [reflexivity | eexists; reflexivity].
  - intros h before entered. now rewrite !render_run.
Qed.

(** C7: the script draws one number field, with default value 1 and
    step 1; untouched, the field yields 1 and the computed triple is
    [(1, 1, 1)]. *)
Theorem default_input h w :
  number_fields (page (snd (render h None))) = [(1, 1)] /\
  fst (st_number_input "Enter an integer" 1 1 None w) = Done 1 /\
  fst (render h None) = Done (1, 1, 1).
Proof. repeat split. Qed.

(** C8: the values are the mathematical powers over the unbounded
    integers, for every [n]; nothing is reduced modulo a word size, so
    magnitudes never shrink from [n] to its square, cube and fifth
    power. *)
Theorem Calculator_exact w n :
  fst (Calculator n w) = Done (n ^ 2, n ^ 3, n ^ 5) /\
  Z.abs n <= n ^ 2 /\
  n ^ 2 <= Z.abs (n ^ 3) /\
  Z.abs (n ^ 3) <= Z.abs (n ^ 5).
Proof.
  split; [reflexivity |].
  replace (n ^ 2) with (n * n) by ring.
  replace (n ^ 3) with (n * (n * n)) by ring.
  replace (n ^ 5) with (n * ((n * n) * (n * n))) by ring.
  destruct (Z.lt_trichotomy n 0) as [Hn | [Hn | Hn]].
  - assert (Hs : 1 <= n * n) by nia.
    assert (Hc : n * (n * n) < 0) by nia.
    assert (Hf : n * ((n * n) * (n * n)) < 0) by nia.
    rewrite (Z.abs_neq n), (Z.abs_neq (n * (n * n))),
      (Z.abs_neq (n * ((n * n) * (n * n)))) by lia.
    repeat split; nia.
  - subst n. repeat split; discriminate.
  - assert (Hs : 1 <= n * n) by nia.
    assert (Hc : 0 < n * (n * n)) by nia.
    assert (Hf : 0 < n * ((n * n) * (n * n))) by nia.
    rewrite (Z.abs_eq n), (Z.abs_eq (n * (n * n))),
      (Z.abs_eq (n * ((n * n) * (n * n)))) by lia.
    repeat split; nia.
Qed.

(** C9: the three outputs agree with one another: square times cube is
    the fifth power, and the fifth power is [n] times the square times the
    square. *)
Theorem powers_consistent w n :
  exists square cube fifth_power,
    fst (Calculator n w) = Done (square, cube, fifth_power) /\
    square * cube = fifth_power /\
    fifth_power = n * square * square.
Proof.
  exists (n ^ 2), (n ^ 3), (n ^ 5).
  split; [reflexivity | split; ring].
Qed.

(** C10: the square is never negative, and the cube and the fifth power
    have the sign of [n]: positive, zero or negative as [n] is. *)
Theorem powers_sign w n :
  exists square cube fifth_power,
    fst (Calculator n w) = Done (square, cube, fifth_power) /\
    0 <= square /\
    Z.sgn cube = Z.sgn n /\
    Z.sgn fifth_power = Z.sgn n /\
    (0 < n -> 0 < cube /\ 0 < fifth_power) /\
    (n = 0 -> cube = 0 /\ fifth_power = 0) /\
    (n < 0 -> cube < 0 /\ fifth_power < 0).
Proof.
  exists (n ^ 2), (n ^ 3), (n ^ 5).
  split; [reflexivity |].
  replace (n ^ 2) with (n * n) by ring.
  replace (n ^ 3) with (n * (n * n)) by ring.
  replace (n ^ 5) with (n * ((n * n) * (n * n))) by ring.
  assert (Hsq : 0 <= n * n) by nia.
  destruct (Z.lt_trichotomy n 0) as [Hn | [Hn | Hn]].
  - assert (0 < n * n) by nia.
    assert (Hc : n * (n * n) < 0) by nia.
    assert (Hf : n * ((n * n) * (n * n)) < 0) by nia.
    rewrite (Z.sgn_neg _ Hc), (Z.sgn_neg _ Hf), (Z.sgn_neg _ Hn).
    repeat split; lia.
  - subst n. cbn. repeat split; lia.
  - assert (0 < n * n) by nia.
    assert (Hc : 0 < n * (n * n)) by nia.
    assert (Hf : 0 < n * ((n * n) * (n * n))) by nia.
    rewrite (Z.sgn_pos _ Hc), (Z.sgn_pos _ Hf), (Z.sgn_pos _ Hn).
    repeat split; lia.
Qed.

End Properties.

(** C5: two invocations on the same [n] compute the same triple, whatever
    worlds they run in (even over different kinds of host state); and two
    render cycles given the same entry return the same triple and draw the
    same page. *)
Theorem Calculator_deterministic (Host1 Host2 : Type)
    (w1 : world Host1) (w2 : world Host2) (n : Z) :
  fst (Calculator n w1) = fst (Calculator n w2) /\
  (forall entered,
     fst (app entered w1) = fst (app entered w2)) /\
  (forall (h1 : Host1) (h2 : Host2) entered,
     fst (render h1 entered) = fst (render h2 entered) /\
     page (snd (render h1 entered)) = page (snd (render h2 entered))).
Proof.
  split; [reflexivity | split].
  - intros entered. now rewrite !app_run.
  - intros h1 h2 entered. rewrite !render_run. split; reflexivity.
Qed.

(** ** Further properties of the three powers *)

Lemma odd_pow_lt_mono (a b k : Z) :
  0 < k -> Z.Odd k -> a < b -> a ^ k < b ^ k.
Proof.
  intros Hk Hodd Hab.
  destruct (Z.le_gt_cases 0 a) as [Ha | Ha].
  - apply Z.pow_lt_mono_l; lia.
  - assert (Hna : a ^ k = - (- a) ^ k)
      by (rewrite Z.pow_opp_odd by exact Hodd; lia).
    destruct (Z.le_gt_cases 0 b) as [Hb | Hb].
    + assert (0 < (- a) ^ k) by (apply Z.pow_pos_nonneg; lia).
      assert (0 <= b ^ k) by (apply Z.pow_nonneg; lia).
      lia.
    + assert (Hnb : b ^ k = - (- b) ^ k)
        by (rewrite Z.pow_opp_odd by exact Hodd; lia).
      assert ((- b) ^ k < (- a) ^ k) by (apply Z.pow_lt_mono_l; lia).
      lia.
Qed.

Lemma odd_pow_inj (a b k : Z) :
  0 < k -> Z.Odd k -> a ^ k = b ^ k -> a = b.
Proof.
  intros Hk Hodd Heq.
  destruct (Z.lt_trichotomy a b) as [Hlt | [Hab | Hgt]]; [| exact Hab |].
  - pose proof (odd_pow_lt_mono a b k Hk Hodd Hlt). lia.
  - pose proof (odd_pow_lt_mono b a k Hk Hodd Hgt). lia.
Qed.

Lemma Odd_3 : Z.Odd 3.
Proof. exists 1. reflexivity. Qed.

Lemma Odd_5 : Z.Odd 5.
Proof. exists 2. reflexivity. Qed.

Lemma fifth_last_digit (r : Z) : 0 <= r < 10 -> r ^ 5 mod 10 = r.
Proof.
  intros Hr.
  assert (Hcases : r = 0 \/ r = 1 \/ r = 2 \/ r = 3 \/ r = 4 \/
                   r = 5 \/ r = 6 \/ r = 7 \/ r = 8 \/ r = 9) by lia.
  repeat (destruct Hcases as [-> | Hcases]; [reflexivity |]).
  subst r. reflexivity.
Qed.

Section MoreProperties.

Context {Host : Type}.
Implicit Types (w : world Host) (h : Host) (n : Z) (entered : option Z).

(** X1: negating the input keeps the square and negates the cube and the
    fifth power. *)
Theorem Calculator_negation w n :
  exists square cube fifth_power,
    fst (Calculator n w) = Done (square, cube, fifth_power) /\
    fst (Calculator (- n) w) = Done (square, - cube, - fifth_power).
Proof.
  exists (n ^ 2), (n ^ 3), (n ^ 5).
  rewrite !Calculator_run. cbn [fst].
  split; [reflexivity |].
  replace ((- n) ^ 2) with (n ^ 2) by ring.
  replace ((- n) ^ 3) with (- n ^ 3) by ring.
  replace ((- n) ^ 5) with (- n ^ 5) by ring.
  reflexivity.
Qed.

(** X2: the input can be read back from the results: two runs with the
    same cube, or with the same fifth power, had the same input; two runs
    with the same square had the same input up to sign. *)
Theorem Calculator_injective w n1 n2 sq1 cu1 fi1 sq2 cu2 fi2 :
  fst (Calculator n1 w) = Done (sq1, cu1, fi1) ->
  fst (Calculator n2 w) = Done (sq2, cu2, fi2) ->
  (cu1 = cu2 -> n1 = n2) /\
  (fi1 = fi2 -> n1 = n2) /\
  (sq1 = sq2 -> n1 = n2 \/ n1 = - n2).
Proof.
  rewrite !Calculator_run. cbn [fst].
  intros H1 H2. injection H1 as <- <- <-. injection H2 as <- <- <-.
  split; [| split].
  - apply (odd_pow_inj n1 n2 3); [lia | exact Odd_3].
  - apply (odd_pow_inj n1 n2 5); [lia | exact Odd_5].
  - intros Hsq. change (n1 ^ 2 = n2 ^ 2) in Hsq. nia.
Qed.

(** X3: the cube and the fifth power grow strictly with the input, over
    negative and positive inputs alike. *)
Theorem Calculator_monotone w n1 n2 :
  n1 < n2 ->
  exists sq1 cu1 fi1 sq2 cu2 fi2,
    fst (Calculator n1 w) = Done (sq1, cu1, fi1) /\
    fst (Calculator n2 w) = Done (sq2, cu2, fi2) /\
    cu1 < cu2 /\ fi1 < fi2.
Proof.
  intros Hlt.
  exists (n1 ^ 2), (n1 ^ 3), (n1 ^ 5), (n2 ^ 2), (n2 ^ 3), (n2 ^ 5).
  rewrite !Calculator_run.
  repeat split.
  - apply odd_pow_lt_mono; [lia | exact Odd_3 | exact Hlt].
  - apply odd_pow_lt_mono; [lia | exact Odd_5 | exact Hlt].
Qed.

(** X6: the fifth power ends in the same decimal digit as the input, and
    each of the three results is even exactly when the input is. *)
Theorem Calculator_last_digit w n :
  exists square cube fifth_power,
    fst (Calculator n w) = Done (square, cube, fifth_power) /\
    Z.abs fifth_power mod 10 = Z.abs n mod 10 /\
    Z.even square = Z.even n /\
    Z.even cube = Z.even n /\
    Z.even fifth_power = Z.even n.
Proof.
  exists (n ^ 2), (n ^ 3), (n ^ 5).
  rewrite Calculator_run. split; [reflexivity |].
  rewrite !Z.even_pow by lia.
  split; [| repeat split].
  rewrite Z.abs_pow, <- Z.mod_pow_l.
  apply fifth_last_digit. apply Z.mod_pos_bound. lia.
Qed.

End MoreProperties.

(** ** Reading the page back *)

Lemma has_space_digits (d : uint) :
  has_space (NilEmpty.string_of_uint d) = false.
Proof. induction d; simpl; auto. Qed.

Lemma has_space_str (z : Z) : has_space (str z) = false.
Proof.
  unfold str.
  assert (Hu : forall d, has_space (NilZero.string_of_uint d) = false)
    by (intros d; destruct d; try reflexivity; apply has_space_digits).
  destruct z as [| p | p]; simpl; [reflexivity | apply Hu | apply Hu].
Qed.

Lemma append_cancel_l (s a b : string) :
  (s ++ a)%string = (s ++ b)%string -> a = b.
Proof.
  induction s as [| c s IH]; simpl; intros H; [exact H |].
  injection H as H. exact (IH H).
Qed.

(** Two blank-free fields followed by a blank: the first blank marks where
    the field ends, so equal texts have equal fields and equal rests. *)
Lemma append_blank_inj (s1 s2 t1 t2 : string) :
  has_space s1 = false -> has_space s2 = false ->
  (s1 ++ String " " t1)%string = (s2 ++ String " " t2)%string ->
  s1 = s2 /\ t1 = t2.
Proof.
  revert s2. induction s1 as [| c1 s1 IH]; intros [| c2 s2]; simpl;
    intros H1 H2 H.
  - injection H as H. split; [reflexivity | exact H].
  - injection H as Hc _. subst c2. discriminate H2.
  - injection H as Hc _. subst c1. discriminate H1.
  - injection H as Hc H. subst c2.
    apply Bool.orb_false_iff in H1 as [_ H1].
    apply Bool.orb_false_iff in H2 as [_ H2].
    destruct (IH s2 H1 H2 H) as [-> ->]. split; reflexivity.
Qed.

(** A result line, whatever its opening words, fixes both numbers it
    shows. *)
Lemma result_line_inj (opening : string) (n1 v1 n2 v2 : Z) :
  (opening ++ str n1 ++ " is: " ++ str v1)%string =
  (opening ++ str n2 ++ " is: " ++ str v2)%string ->
  n1 = n2 /\ v1 = v2.
Proof.
  intros H. apply append_cancel_l in H.
  change (" is: " ++ str v1)%string
    with (String " " ("is: " ++ str v1)%string) in H.
  change (" is: " ++ str v2)%string
    with (String " " ("is: " ++ str v2)%string) in H.
  apply append_blank_inj in H as [Hn Hv]; try apply has_space_str.
  apply append_cancel_l in Hv.
  split; apply str_inj; assumption.
Qed.

Section Page.

Context {Host : Type}.
Implicit Types (w : world Host) (h : Host) (n : Z) (entered : option Z).

(** X4: any one of the three result lines tells the input: if two pages
    show the same line in the same place, the number fields behind them
    yielded the same integer. *)
Theorem result_line_determines_input h1 h2 n1 n2 (i : nat) :
  (i < 3)%nat ->
  nth_error (result_lines (page (snd (render h1 (Some n1))))) i =
  nth_error (result_lines (page (snd (render h2 (Some n2))))) i ->
  n1 = n2.
Proof.
  intros Hi. rewrite !render_run. cbn [snd page field_value].
  unfold result_lines, app_page. cbn [after_input written].
  destruct i as [| [| [| i]]]; [| | | lia]; cbn [nth_error];
    intros H;
    apply (f_equal (fun o => match o with Some l => l | None => EmptyString end))
      in H;
    cbv beta iota in H; apply result_line_inj in H; tauto.
Qed.

(** X5: the layout of a rendered page.  Whatever is entered, the page has
    six elements: the title, the introduction and one number field
    (default 1, step 1) come first and are the same for every entry, and
    three written lines follow the field; the introduction is the only
    line written above it. *)
Theorem page_layout h1 h2 entered1 entered2 :
  let p1 := page (snd (render h1 entered1)) in
  let p2 := page (snd (render h2 entered2)) in
  length p1 = 6%nat /\
  firstn 3 p1 = firstn 3 p2 /\
  number_fields p1 = [(1, 1)] /\
  length (result_lines p1) = 3%nat /\
  written p1 =
    ("Enter a number to calculate its square, cube and fifth power."
       :: result_lines p1)%list.
Proof.
  cbv zeta. rewrite !render_run. cbn [snd page].
  repeat split.
Qed.

End Page.

(** ** The properties at concrete inputs *)

Lemma Calculator_injective_witness :
  fst (Calculator 2 (World tt [])) = Done (4, 8, 32) /\
  ((8 = 8 -> 2 = 2) /\ (32 = 32 -> 2 = 2) /\ (4 = 4 -> 2 = 2 \/ 2 = - 2)).
Proof.
  split; [reflexivity |].
  exact (Calculator_injective (World tt []) 2 2 4 8 32 4 8 32
           eq_refl eq_refl).
Defined.

Lemma Calculator_monotone_witness :
  -2 < 3 /\
  exists sq1 cu1 fi1 sq2 cu2 fi2,
    fst (Calculator (-2) (World tt [])) = Done (sq1, cu1, fi1) /\
    fst (Calculator 3 (World tt [])) = Done (sq2, cu2, fi2) /\
    cu1 < cu2 /\ fi1 < fi2.
Proof.
  split; [reflexivity |].
  exact (Calculator_monotone (World tt []) (-2) 3 eq_refl).
Defined.

Lemma result_line_determines_input_witness :
  nth_error (result_lines (page (snd (render tt (Some 7))))) 1 =
    Some "The cube of 7 is: 343" /\
  7 = 7.
Proof.
  split; [reflexivity |].
  exact (result_line_determines_input tt tt 7 7 1
           (le_n_S _ _ (le_n_S _ _ (le_0_n _))) eq_refl).
Defined.
